(** * The 'als-refactor-add-parameters' command executor

    Shallow embedding of
    [integration/vscode/ada/src/refactoring/alsAddParameterCommand.ts].

    The executor is an interactive program: it reads the argument object it
    was handed, opens one input box, waits for the user, and possibly writes
    the user's text back into the argument object.  It is embedded as an
    interaction tree over two families of events (accesses to the argument
    object, calls to the editor window), and given meaning by a handler that
    threads the argument object and a log of performed effects, and that
    asks a model of the user what happens at the prompt. *)

From Stdlib Require Import Ascii String List Bool Lia.
From ITree Require Import ITree ITreeFacts Events.State Events.StateFacts.
Import ITreeNotations.
Import ListNotations.
Local Open Scope itree_scope.
Local Open Scope string_scope.

Set Implicit Arguments.

(** ** Values *)

(** The double-quote character, code point 34. *)
Definition dquote : string := String "034"%char EmptyString.

(** Modelled from the spec: the enumeration [AdaGrammarRule] is declared in
    [../alsProtocolExtensions], which is not part of the sources at hand.  A
    grammar rule identifier is an opaque selector; the three selectors this
    file names are constructors of their own, every other member of the
    enumeration is [Other_Rule] with its name. *)
Variant AdaGrammarRule : Type :=
| Defining_Id_Rule
| Defining_Id_List_Rule
| Param_Spec_Rule
| Other_Rule (name : string).

(** [type AddParameterCommandArgs].  The declared field types are [string]
    and [boolean]; the executor itself allows for either field to be
    [undefined] at run time (the server's command attributes may have
    changed), so each field is an [option] and [None] is [undefined]. *)
Record AddParameterCommandArgs : Type := Build_Args {
  newParameter : option string;
  requiresFullSpecification : option bool
}.

(** The assignment [args.newParameter = input]. *)
Definition set_newParameter (input : string) (args : AddParameterCommandArgs)
  : AddParameterCommandArgs :=
  {| newParameter := Some input;
     requiresFullSpecification := requiresFullSpecification args |}.

(** The promise an [async] function hands back once it has settled: resolved
    with a value, or rejected with a reason (here always a string). *)
Variant Promise (A : Type) : Type :=
| Promise_resolve (value : A)
| Promise_reject (reason : string).
Arguments Promise_resolve {A} value.
Arguments Promise_reject {A} reason.

Section Executor.

(** [LanguageClient] comes from [vscode-languageclient/node]; the executor
    only passes the client on to the syntax check provider. *)
Context {LanguageClient : Type}.

(** Modelled from the spec: the class [AdaSyntaxCheckProvider] is declared in
    [../alsProtocolExtensions], which is not part of the sources at hand.  An
    instance is the syntax-check capability with the client, the grammar
    rules and the diagnostic message bound when it is constructed. *)
Record AdaSyntaxCheckProvider : Type := new_AdaSyntaxCheckProvider {
  provider_client : LanguageClient;
  provider_rules : list AdaGrammarRule;
  provider_diagnostic : string
}.

(** The callbacks that can be installed as [validateInput].  The one the
    executor installs is the [sendCheckSyntaxRequest] member taken from a
    provider instance. *)
Variant InputValidator : Type :=
| sendCheckSyntaxRequest (adaSyntaxCheckProvider : AdaSyntaxCheckProvider).

(** The fields of vscode's [InputBoxOptions] that the executor sets. *)
Record InputBoxOptions : Type := Build_InputBoxOptions {
  title : string;
  prompt : string;
  ignoreFocusOut : bool;
  validateInput : InputValidator
}.

(** ** Events *)

(** Accesses to the argument object, which the caller owns and shares with
    the executor. *)
Variant argsE : Type -> Type :=
| ReadArgs : argsE AddParameterCommandArgs
| Assign_newParameter (input : string) : argsE unit.

(** [window.showInputBox]: answers the confirmed text, or [None]
    ([undefined]) when the user cancelled. *)
Variant windowE : Type -> Type :=
| showInputBox (options : InputBoxOptions) : windowE (option string).

(** ** The executor *)

Definition missing_field_message : string :=
  "Invalid als-refactor-add-parameters command: missing " ++ dquote
   ++ "requiresFullSpecification" ++ dquote ++ " field".

Definition select_prompt (requiresFull : bool) : string :=
  if requiresFull
  then "Insert a full parameter specification"
  else "Insert one or more comma-separated parameter names or a full parameter specification".

Definition select_rules (requiresFull : bool) : list AdaGrammarRule :=
  if requiresFull
  then [Param_Spec_Rule]
  else [Defining_Id_Rule; Defining_Id_List_Rule; Param_Spec_Rule].

Definition select_diagnostic (requiresFull : bool) : string :=
  if requiresFull
  then "This is not a syntactically valid full parameter specification"
  else "This is not a syntactically valid parameter name or full parameter specification".

(** The object literal [inputBoxOptions], for a flag that is defined. *)
Definition inputBoxOptions (client : LanguageClient) (requiresFull : bool)
  : InputBoxOptions :=
  let prompt := select_prompt requiresFull in
  let rules := select_rules requiresFull in
  let diagnostic := select_diagnostic requiresFull in
  let adaSyntaxCheckProvider := new_AdaSyntaxCheckProvider client rules diagnostic in
  {| title := "Add Parameter(s)";
     prompt := prompt;
     ignoreFocusOut := true;
     validateInput := sendCheckSyntaxRequest adaSyntaxCheckProvider |}.

(** [alsAddParameterCommandExecutor].  The fields of [args] are read before
    the single [await], so one [ReadArgs] stands for all of these reads. *)
Definition alsAddParameterCommandExecutor (client : LanguageClient)
  : itree (argsE +' windowE) (Promise bool) :=
  args <- trigger ReadArgs ;;
  match requiresFullSpecification args, newParameter args with
  | None, _ | _, None => Ret (Promise_reject missing_field_message)
  | Some requiresFull, Some _ =>
      input <- trigger (showInputBox (inputBoxOptions client requiresFull)) ;;
      match input with
      | Some input =>
          trigger (Assign_newParameter input) ;;
          Ret (Promise_resolve true)
      | None => Ret (Promise_resolve false)
      end
  end.

(** ** The environment *)

(** What the executor did to its environment, oldest first. *)
Variant Effect : Type :=
| Prompted (options : InputBoxOptions)
| Wrote_newParameter (input : string).

Record World : Type := Build_World {
  world_args : AddParameterCommandArgs;
  world_effects : list Effect
}.

(** The user at the prompt: [Some T] confirms the text [T], [None] cancels. *)
Definition User : Type := InputBoxOptions -> option string.

Definition handle_args : argsE ~> Monads.stateT World (itree void1) :=
  fun _ e w =>
    match e with
    | ReadArgs => Ret (w, world_args w)
    | Assign_newParameter input =>
        Ret ({| world_args := set_newParameter input (world_args w);
                world_effects := world_effects w ++ [Wrote_newParameter input] |}, tt)
    end.

Definition handle_window (user : User) : windowE ~> Monads.stateT World (itree void1) :=
  fun _ e w =>
    match e with
    | showInputBox options =>
        Ret ({| world_args := world_args w;
                world_effects := world_effects w ++ [Prompted options] |},
             user options)
    end.

Definition handle (user : User) : (argsE +' windowE) ~> Monads.stateT World (itree void1) :=
  case_ handle_args (handle_window user).

(** The input boxes shown, and the texts assigned to [args.newParameter],
    among the effects of a run. *)
Fixpoint prompts (effects : list Effect) : list InputBoxOptions :=
  match effects with
  | [] => []
  | Prompted options :: rest => options :: prompts rest
  | Wrote_newParameter _ :: rest => prompts rest
  end.

Fixpoint writes (effects : list Effect) : list string :=
  match effects with
  | [] => []
  | Prompted _ :: rest => writes rest
  | Wrote_newParameter input :: rest => input :: writes rest
  end.

(** One invocation, from a world holding the argument object. *)
Definition invoke (user : User) (client : LanguageClient) (args : AddParameterCommandArgs)
  : itree void1 (World * Promise bool) :=
  interp_state (handle user) (alsAddParameterCommandExecutor client)
    {| world_args := args; world_effects := [] |}.

(** ** A shared argument object *)

(** The argument object belongs to the caller, and the executor is suspended
    at its [await] for as long as the input box is open.  Other code that
    holds the object may run in that time; [meanwhile] is what it does to the
    object.  The assignment on confirmation then goes to the object as it is
    at that moment. *)
Definition handle_window_shared (user : User)
    (meanwhile : AddParameterCommandArgs -> AddParameterCommandArgs)
  : windowE ~> Monads.stateT World (itree void1) :=
  fun _ e w =>
    match e with
    | showInputBox options =>
        Ret ({| world_args := meanwhile (world_args w);
                world_effects := world_effects w ++ [Prompted options] |},
             user options)
    end.

Definition handle_shared (user : User)
    (meanwhile : AddParameterCommandArgs -> AddParameterCommandArgs)
  : (argsE +' windowE) ~> Monads.stateT World (itree void1) :=
  case_ handle_args (handle_window_shared user meanwhile).

Definition invoke_shared (user : User)
    (meanwhile : AddParameterCommandArgs -> AddParameterCommandArgs)
    (client : LanguageClient) (args : AddParameterCommandArgs)
  : itree void1 (World * Promise bool) :=
  interp_state (handle_shared user meanwhile)
    (alsAddParameterCommandExecutor client)
    {| world_args := args; world_effects := [] |}.

End Executor.

(** ** Concrete invocations *)

(** A client with nothing to it, a user who types a text and confirms it,
    and a user who dismisses the prompt. *)
Definition confirming (T : string) : @User unit := fun _ => Some T.
Definition dismissing : @User unit := fun _ => None.

Definition args_without_newParameter : AddParameterCommandArgs :=
  {| newParameter := None; requiresFullSpecification := Some false |}.

Definition args_names_allowed : AddParameterCommandArgs :=
  {| newParameter := Some EmptyString; requiresFullSpecification := Some false |}.

Definition args_full_required : AddParameterCommandArgs :=
  {| newParameter := Some "A, B"; requiresFullSpecification := Some true |}.

(** Code that, while the prompt is open, flips the flag to [false] and
    puts a text of its own into [newParameter]. *)
Definition flip_and_fill (args : AddParameterCommandArgs) : AddParameterCommandArgs :=
  {| newParameter := Some "stale"; requiresFullSpecification := Some false |}.

(** ** Running one invocation *)

Section Properties.

Context {LanguageClient : Type}.

Section Invoke.

Variable user : @User LanguageClient.
Variable client : LanguageClient.

Lemma invoke_missing (args : AddParameterCommandArgs) :
  requiresFullSpecification args = None \/ newParameter args = None ->
  invoke user client args
  ≈ Ret ({| world_args := args; world_effects := [] |},
         Promise_reject missing_field_message).
Proof.
  intros Hmissing. unfold invoke, alsAddParameterCommandExecutor.
  rewrite interp_state_bind, interp_state_trigger. cbn.
  rewrite bind_ret_l. cbn.
  destruct args as [np rfs]; cbn in *.
  destruct rfs as [flag|], np as [old|];
    try (rewrite interp_state_ret; reflexivity).
  destruct Hmissing; discriminate.
Qed.

Lemma invoke_confirmed (args : AddParameterCommandArgs) requiresFull old T :
  requiresFullSpecification args = Some requiresFull ->
  newParameter args = Some old ->
  user (inputBoxOptions client requiresFull) = Some T ->
  invoke user client args
  ≈ Ret ({| world_args := set_newParameter T args;
            world_effects := [Prompted (inputBoxOptions client requiresFull);
                              Wrote_newParameter T] |},
         Promise_resolve true).
Proof.
  intros Hflag Hold Huser. unfold invoke, alsAddParameterCommandExecutor.
  rewrite interp_state_bind, interp_state_trigger. cbn.
  rewrite bind_ret_l. cbn. rewrite Hflag, Hold.
  rewrite interp_state_bind, interp_state_trigger. cbn.
  rewrite bind_ret_l. cbn. rewrite Huser.
  rewrite interp_state_bind, interp_state_trigger. cbn.
  rewrite bind_ret_l. cbn.
  rewrite interp_state_ret. reflexivity.
Qed.

Lemma invoke_cancelled (args : AddParameterCommandArgs) requiresFull old :
  requiresFullSpecification args = Some requiresFull ->
  newParameter args = Some old ->
  user (inputBoxOptions client requiresFull) = None ->
  invoke user client args
  ≈ Ret ({| world_args := args;
            world_effects := [Prompted (inputBoxOptions client requiresFull)] |},
         Promise_resolve false).
Proof.
  intros Hflag Hold Huser. unfold invoke, alsAddParameterCommandExecutor.
  rewrite interp_state_bind, interp_state_trigger. cbn.
  rewrite bind_ret_l. cbn. rewrite Hflag, Hold.
  rewrite interp_state_bind, interp_state_trigger. cbn.
  rewrite bind_ret_l. cbn. rewrite Huser.
  rewrite interp_state_ret. reflexivity.
Qed.

(** A run settles in one way only. *)
Lemma invoke_deterministic (args : AddParameterCommandArgs) w1 r1 w2 r2 :
  invoke user client args ≈ Ret (w1, r1) ->
  invoke user client args ≈ Ret (w2, r2) ->
  w1 = w2 /\ r1 = r2.
Proof.
  intros H1 H2. rewrite H1 in H2.
  apply eutt_inv_Ret in H2. inversion H2. split; reflexivity.
Qed.

End Invoke.

(** ** Properties of the executor *)

Section Claims.

Variable user : @User LanguageClient.
Variable client : LanguageClient.
Variable args : AddParameterCommandArgs.

(** Every invocation settles: the run ends in some world with some promise. *)
Lemma invoke_settles :
  exists w r, invoke user client args ≈ Ret (w, r).
Proof.
  destruct (requiresFullSpecification args) as [flag|] eqn:Hflag.
  - destruct (newParameter args) as [old|] eqn:Hold.
    + destruct (user (inputBoxOptions client flag)) as [T|] eqn:Huser.
      * eexists _, _. eapply invoke_confirmed; eassumption.
      * eexists _, _. eapply invoke_cancelled; eassumption.
    + eexists _, _. apply invoke_missing. now right.
  - eexists _, _. apply invoke_missing. now left.
Qed.

(** C1: when [newParameter] or [requiresFullSpecification] is absent from the
    argument record, the executor rejects with the one fixed missing-field
    diagnostic, and no input box is shown. *)
Theorem missing_field_rejects_without_prompt :
  requiresFullSpecification args = None \/ newParameter args = None ->
  exists w,
    invoke user client args ≈ Ret (w, Promise_reject missing_field_message)
    /\ prompts (world_effects w) = [].
Proof.
  intros Hmissing. eexists. split.
  - apply invoke_missing. exact Hmissing.
  - reflexivity.
Qed.

(** C2: with both fields present, a user who confirms the text [T] makes the
    executor resolve to [true], and afterwards the record's [newParameter]
    is [T]. *)
Theorem confirmed_text_is_stored (requiresFull : bool) (old T : string) :
  requiresFullSpecification args = Some requiresFull ->
  newParameter args = Some old ->
  user (inputBoxOptions client requiresFull) = Some T ->
  exists w,
    invoke user client args ≈ Ret (w, Promise_resolve true)
    /\ newParameter (world_args w) = Some T.
Proof.
  intros Hflag Hold Huser. eexists. split.
  - eapply invoke_confirmed; eassumption.
  - reflexivity.
Qed.

(** C3: with both fields present, a user who cancels the prompt makes the
    executor resolve to [false], and the record's [newParameter] keeps the
    value it had at invocation. *)
Theorem cancelled_prompt_keeps_text (requiresFull : bool) (old : string) :
  requiresFullSpecification args = Some requiresFull ->
  newParameter args = Some old ->
  user (inputBoxOptions client requiresFull) = None ->
  exists w,
    invoke user client args ≈ Ret (w, Promise_resolve false)
    /\ newParameter (world_args w) = newParameter args.
Proof.
  intros Hflag Hold Huser. eexists. split.
  - eapply invoke_cancelled; eassumption.
  - reflexivity.
Qed.

(** The one input box of a run with both fields present, whatever the user
    does with it. *)
Lemma invoke_prompts_once (requiresFull : bool) (old : string) :
  requiresFullSpecification args = Some requiresFull ->
  newParameter args = Some old ->
  exists w r,
    invoke user client args ≈ Ret (w, r)
    /\ prompts (world_effects w) = [inputBoxOptions client requiresFull].
Proof.
  intros Hflag Hold.
  destruct (user (inputBoxOptions client requiresFull)) as [T|] eqn:Huser.
  - eexists _, _. split; [eapply invoke_confirmed; eassumption | reflexivity].
  - eexists _, _. split; [eapply invoke_cancelled; eassumption | reflexivity].
Qed.

(** C4: with both fields present, the prompt, the grammar rules and the
    diagnostic message depend on [requiresFullSpecification] alone: the
    full-specification prompt, the single rule [Param_Spec_Rule] and its
    diagnostic when the flag is [true]; the name-or-full prompt, the three
    rules [Defining_Id_Rule], [Defining_Id_List_Rule], [Param_Spec_Rule] and
    their diagnostic when it is [false]. *)
Theorem variant_selected_by_flag (requiresFull : bool) (old : string) :
  requiresFullSpecification args = Some requiresFull ->
  newParameter args = Some old ->
  exists w r options provider,
    invoke user client args ≈ Ret (w, r)
    /\ prompts (world_effects w) = [options]
    /\ validateInput options = sendCheckSyntaxRequest provider
    /\ prompt options =
       (if requiresFull
        then "Insert a full parameter specification"
        else "Insert one or more comma-separated parameter names or a full parameter specification")
    /\ provider_rules provider =
       (if requiresFull
        then [Param_Spec_Rule]
        else [Defining_Id_Rule; Defining_Id_List_Rule; Param_Spec_Rule])
    /\ provider_diagnostic provider =
       (if requiresFull
        then "This is not a syntactically valid full parameter specification"
        else "This is not a syntactically valid parameter name or full parameter specification").
Proof.
  intros Hflag Hold.
  destruct (invoke_prompts_once Hflag Hold) as (w & r & Hrun & Hprompts).
  exists w, r, (inputBoxOptions client requiresFull).
  eexists. split; [exact Hrun|]. split; [exact Hprompts|].
  split; [reflexivity|]. repeat split.
Qed.

(** C5: every invocation ends in exactly one of three ways: resolved to
    [true] after a confirmed input, the record holding that input; resolved
    to [false] after a cancellation; or rejected with the string diagnostic
    because a field is missing.  The run settles in no other way. *)
Theorem three_outcomes :
  exists w r,
    invoke user client args ≈ Ret (w, r)
    /\ (forall w' r', invoke user client args ≈ Ret (w', r') -> w' = w /\ r' = r)
    /\ ((r = Promise_resolve true
         /\ exists requiresFull old T,
              requiresFullSpecification args = Some requiresFull
              /\ newParameter args = Some old
              /\ user (inputBoxOptions client requiresFull) = Some T
              /\ newParameter (world_args w) = Some T
              /\ world_args w = {| newParameter := Some T;
                                   requiresFullSpecification := Some requiresFull |})
        \/ (r = Promise_resolve false
            /\ exists requiresFull old,
                 requiresFullSpecification args = Some requiresFull
                 /\ newParameter args = Some old
                 /\ user (inputBoxOptions client requiresFull) = None
                 /\ world_args w = args)
        \/ (r = Promise_reject missing_field_message
            /\ (requiresFullSpecification args = None \/ newParameter args = None)
            /\ world_args w = args)).
Proof.
  assert (Hdet : forall w r, invoke user client args ≈ Ret (w, r) ->
            forall w' r', invoke user client args ≈ Ret (w', r') -> w' = w /\ r' = r).
  { intros w r Hrun w' r' Hrun'. eapply invoke_deterministic; eassumption. }
  destruct (requiresFullSpecification args) as [flag|] eqn:Hflag.
  - destruct (newParameter args) as [old|] eqn:Hold.
    + destruct (user (inputBoxOptions client flag)) as [T|] eqn:Huser.
      * pose proof (invoke_confirmed user client args Hflag Hold Huser) as Hrun.
        eexists _, _. split; [exact Hrun|]. split; [exact (Hdet _ _ Hrun)|].
        left. split; [reflexivity|]. exists flag, old, T.
        split; [reflexivity|]. split; [reflexivity|]. split; [exact Huser|].
        split; [reflexivity|]. cbn. unfold set_newParameter. now rewrite Hflag.
      * pose proof (invoke_cancelled user client args Hflag Hold Huser) as Hrun.
        eexists _, _. split; [exact Hrun|]. split; [exact (Hdet _ _ Hrun)|].
        right; left. split; [reflexivity|]. exists flag, old. repeat split; assumption.
    + assert (Hrun := invoke_missing user client args (or_intror Hold)).
      eexists _, _. split; [exact Hrun|]. split; [exact (Hdet _ _ Hrun)|].
      right; right. split; [reflexivity|]. split; [now right | reflexivity].
  - assert (Hrun := invoke_missing user client args (or_introl Hflag)).
    eexists _, _. split; [exact Hrun|]. split; [exact (Hdet _ _ Hrun)|].
    right; right. split; [reflexivity|]. split; [now left | reflexivity].
Qed.

(** C6: in every invocation the executor writes to the argument record at
    most once; a write assigns [newParameter] alone and happens only when the
    user confirmed, with the confirmed text; [requiresFullSpecification] is
    the same after the run as before it, whatever the outcome. *)
Theorem record_written_at_most_once :
  exists w r,
    invoke user client args ≈ Ret (w, r)
    /\ length (writes (world_effects w)) <= 1
    /\ requiresFullSpecification (world_args w) = requiresFullSpecification args
    /\ (writes (world_effects w) = [] -> world_args w = args)
    /\ (forall T, In T (writes (world_effects w)) ->
          r = Promise_resolve true
          /\ (exists requiresFull,
                requiresFullSpecification args = Some requiresFull
                /\ user (inputBoxOptions client requiresFull) = Some T)
          /\ world_args w = set_newParameter T args).
Proof.
  destruct (requiresFullSpecification args) as [flag|] eqn:Hflag.
  - destruct (newParameter args) as [old|] eqn:Hold.
    + destruct (user (inputBoxOptions client flag)) as [T|] eqn:Huser.
      * eexists _, _. split; [eapply invoke_confirmed; eassumption|]. cbn.
        split; [lia|]. split; [exact Hflag|]. split; [discriminate|].
        intros T' [<-|[]]. split; [reflexivity|]. split; [|reflexivity].
        exists flag. split; [reflexivity | exact Huser].
      * eexists _, _. split; [eapply invoke_cancelled; eassumption|]. cbn.
        split; [lia|]. split; [exact Hflag|]. split; [reflexivity|]. intros T' [].
    + eexists _, _. split; [apply invoke_missing; now right|]. cbn.
      split; [lia|]. split; [exact Hflag|]. split; [reflexivity|]. intros T' [].
  - eexists _, _. split; [apply invoke_missing; now left|]. cbn.
    split; [lia|]. split; [exact Hflag|]. split; [reflexivity|]. intros T' [].
Qed.

(** C7: from the record [{newParameter: <empty>, requiresFullSpecification:
    true}], a user who confirms the text [X : Integer] makes the executor
    resolve to [true], and the record afterwards is [{newParameter:
    X : Integer, requiresFullSpecification: true}]. *)
Theorem scenario_full_specification :
  user (inputBoxOptions client true) = Some "X : Integer" ->
  exists w,
    invoke user client
      {| newParameter := Some EmptyString; requiresFullSpecification := Some true |}
    ≈ Ret (w, Promise_resolve true)
    /\ world_args w = {| newParameter := Some "X : Integer";
                         requiresFullSpecification := Some true |}.
Proof.
  intros Huser. eexists. split.
  - eapply invoke_confirmed with (old := EmptyString); [reflexivity | reflexivity | exact Huser].
  - reflexivity.
Qed.

(** C8: with both fields present, the input box shown has the title
    [Add Parameter(s)], stays open when focus is lost ([ignoreFocusOut] is
    set), and validates its input with the [sendCheckSyntaxRequest] of the
    syntax check provider built from the client, the selected grammar rules
    and the selected diagnostic. *)
Theorem input_box_is_configured (requiresFull : bool) (old : string) :
  requiresFullSpecification args = Some requiresFull ->
  newParameter args = Some old ->
  exists w r options,
    invoke user client args ≈ Ret (w, r)
    /\ prompts (world_effects w) = [options]
    /\ title options = "Add Parameter(s)"
    /\ ignoreFocusOut options = true
    /\ validateInput options =
       sendCheckSyntaxRequest
         (new_AdaSyntaxCheckProvider client
            (select_rules requiresFull) (select_diagnostic requiresFull)).
Proof.
  intros Hflag Hold.
  destruct (invoke_prompts_once Hflag Hold) as (w & r & Hrun & Hprompts).
  exists w, r, (inputBoxOptions client requiresFull).
  split; [exact Hrun|]. split; [exact Hprompts|]. repeat split.
Qed.

(** C9: when the executor rejects because a field is missing, the argument
    record is left as it was: nothing is written to [newParameter] or to
    [requiresFullSpecification] before the rejection. *)
Theorem rejection_leaves_record_unchanged :
  requiresFullSpecification args = None \/ newParameter args = None ->
  exists w,
    invoke user client args ≈ Ret (w, Promise_reject missing_field_message)
    /\ world_args w = args
    /\ writes (world_effects w) = [].
Proof.
  intros Hmissing. eexists. split.
  - apply invoke_missing. exact Hmissing.
  - split; reflexivity.
Qed.

(** C10: confirming the empty text is not a cancellation: with both fields
    present, a user who confirms the empty string makes the executor resolve
    to [true] and sets [newParameter] to the empty string, whatever it held
    before; only the [undefined] answer counts as a cancellation. *)
Theorem empty_text_is_a_confirmation (requiresFull : bool) (old : string) :
  requiresFullSpecification args = Some requiresFull ->
  newParameter args = Some old ->
  user (inputBoxOptions client requiresFull) = Some EmptyString ->
  exists w,
    invoke user client args ≈ Ret (w, Promise_resolve true)
    /\ newParameter (world_args w) = Some EmptyString
    /\ writes (world_effects w) = [EmptyString]
    /\ (forall w', ~ invoke user client args ≈ Ret (w', Promise_resolve false)).
Proof.
  intros Hflag Hold Huser.
  pose proof (invoke_confirmed user client args Hflag Hold Huser) as Hrun.
  eexists. split; [exact Hrun|]. split; [reflexivity|]. split; [reflexivity|].
  intros w' Hfalse.
  destruct (@invoke_deterministic user client args _ _ _ _ Hrun Hfalse) as [_ Habs].
  discriminate Habs.
Qed.

End Claims.

End Properties.

(** ** The theorems at concrete invocations *)

Lemma missing_field_rejects_without_prompt_witness :
  (requiresFullSpecification args_without_newParameter = None
   \/ newParameter args_without_newParameter = None)
  /\ exists w,
       invoke (confirming "N") tt args_without_newParameter
       ≈ Ret (w, Promise_reject missing_field_message)
       /\ prompts (world_effects w) = [].
Proof.
  split; [right; reflexivity|].
  apply (@missing_field_rejects_without_prompt unit (confirming "N") tt
           args_without_newParameter).
  right; reflexivity.
Defined.

Lemma confirmed_text_is_stored_witness :
  exists w,
    invoke (confirming "A, B") tt args_names_allowed ≈ Ret (w, Promise_resolve true)
    /\ newParameter (world_args w) = Some "A, B".
Proof.
  apply (@confirmed_text_is_stored unit (confirming "A, B") tt args_names_allowed
           false EmptyString "A, B"); reflexivity.
Defined.

Lemma cancelled_prompt_keeps_text_witness :
  exists w,
    invoke dismissing tt args_full_required ≈ Ret (w, Promise_resolve false)
    /\ newParameter (world_args w) = Some "A, B".
Proof.
  apply (@cancelled_prompt_keeps_text unit dismissing tt args_full_required
           true "A, B"); reflexivity.
Defined.

Lemma variant_selected_by_flag_witness :
  exists w r options provider,
    invoke dismissing tt args_names_allowed ≈ Ret (w, r)
    /\ prompts (world_effects w) = [options]
    /\ validateInput options = sendCheckSyntaxRequest provider
    /\ prompt options =
       "Insert one or more comma-separated parameter names or a full parameter specification"
    /\ provider_rules provider =
       [Defining_Id_Rule; Defining_Id_List_Rule; Param_Spec_Rule]
    /\ provider_diagnostic provider =
       "This is not a syntactically valid parameter name or full parameter specification".
Proof.
  apply (@variant_selected_by_flag unit dismissing tt args_names_allowed false EmptyString);
    reflexivity.
Defined.

Lemma scenario_full_specification_witness :
  exists w,
    invoke (confirming "X : Integer") tt
      {| newParameter := Some EmptyString; requiresFullSpecification := Some true |}
    ≈ Ret (w, Promise_resolve true)
    /\ world_args w = {| newParameter := Some "X : Integer";
                         requiresFullSpecification := Some true |}.
Proof.
  apply (@scenario_full_specification unit (confirming "X : Integer") tt).
  reflexivity.
Defined.

Lemma input_box_is_configured_witness :
  exists w r options,
    invoke (confirming "P : in out Natural") tt args_full_required ≈ Ret (w, r)
    /\ prompts (world_effects w) = [options]
    /\ title options = "Add Parameter(s)"
    /\ ignoreFocusOut options = true
    /\ validateInput options =
       sendCheckSyntaxRequest
         (new_AdaSyntaxCheckProvider tt [Param_Spec_Rule]
            "This is not a syntactically valid full parameter specification").
Proof.
  apply (@input_box_is_configured unit (confirming "P : in out Natural") tt
           args_full_required true "A, B"); reflexivity.
Defined.

Lemma rejection_leaves_record_unchanged_witness :
  exists w,
    invoke dismissing tt
      {| newParameter := Some "kept"; requiresFullSpecification := None |}
    ≈ Ret (w, Promise_reject missing_field_message)
    /\ world_args w = {| newParameter := Some "kept"; requiresFullSpecification := None |}
    /\ writes (world_effects w) = [].
Proof.
  apply (@rejection_leaves_record_unchanged unit dismissing tt
           {| newParameter := Some "kept"; requiresFullSpecification := None |}).
  left; reflexivity.
Defined.

Lemma empty_text_is_a_confirmation_witness :
  exists w,
    invoke (confirming EmptyString) tt args_full_required ≈ Ret (w, Promise_resolve true)
    /\ newParameter (world_args w) = Some EmptyString
    /\ writes (world_effects w) = [EmptyString]
    /\ (forall w', ~ invoke (confirming EmptyString) tt args_full_required
                     ≈ Ret (w', Promise_resolve false)).
Proof.
  apply (@empty_text_is_a_confirmation unit (confirming EmptyString) tt args_full_required
           true "A, B"); reflexivity.
Defined.

(** ** Further properties of the executor *)

Section Further.

Context {LanguageClient : Type}.

Variable user : @User LanguageClient.
Variable client : LanguageClient.

(** X1: the effects of a run are, in order, nothing at all when it rejects,
    one input box when it resolves to [false], and one input box followed by
    one assignment of the confirmed text when it resolves to [true]: the
    record is never written before the prompt is answered, and the user is
    never asked twice. *)
Theorem effects_follow_outcome (args : AddParameterCommandArgs) :
  exists w r,
    invoke user client args ≈ Ret (w, r)
    /\ ((r = Promise_reject missing_field_message /\ world_effects w = [])
        \/ (r = Promise_resolve false
            /\ exists requiresFull,
                 requiresFullSpecification args = Some requiresFull
                 /\ world_effects w = [Prompted (inputBoxOptions client requiresFull)])
        \/ (r = Promise_resolve true
            /\ exists requiresFull T,
                 requiresFullSpecification args = Some requiresFull
                 /\ user (inputBoxOptions client requiresFull) = Some T
                 /\ world_effects w = [Prompted (inputBoxOptions client requiresFull);
                                       Wrote_newParameter T])).
Proof.
  destruct (requiresFullSpecification args) as [flag|] eqn:Hflag.
  - destruct (newParameter args) as [old|] eqn:Hold.
    + destruct (user (inputBoxOptions client flag)) as [T|] eqn:Huser.
      * eexists _, _. split; [eapply invoke_confirmed; eassumption|].
        right; right. split; [reflexivity|]. exists flag, T. auto.
      * eexists _, _. split; [eapply invoke_cancelled; eassumption|].
        right; left. split; [reflexivity|]. exists flag. auto.
    + eexists _, _. split; [apply invoke_missing; now right|]. left. auto.
  - eexists _, _. split; [apply invoke_missing; now left|]. left. auto.
Qed.

(** X2: the text that [newParameter] holds at invocation is only tested for
    presence.  Two records with the same flag and some text each lead to the
    same promise and the same effects (the same input box: the old text is not
    offered to the user), and to the same record when the user confirms. *)
Theorem old_text_is_not_used (args1 args2 : AddParameterCommandArgs)
    (requiresFull : bool) (old1 old2 : string) :
  requiresFullSpecification args1 = Some requiresFull ->
  requiresFullSpecification args2 = Some requiresFull ->
  newParameter args1 = Some old1 ->
  newParameter args2 = Some old2 ->
  exists w1 w2 r,
    invoke user client args1 ≈ Ret (w1, r)
    /\ invoke user client args2 ≈ Ret (w2, r)
    /\ world_effects w1 = world_effects w2
    /\ (r = Promise_resolve true -> world_args w1 = world_args w2).
Proof.
  intros Hflag1 Hflag2 Hold1 Hold2.
  destruct (user (inputBoxOptions client requiresFull)) as [T|] eqn:Huser.
  - eexists _, _, _. split; [eapply invoke_confirmed; eassumption|].
    split; [eapply invoke_confirmed; eassumption|]. split; [reflexivity|].
    intros _. unfold set_newParameter. cbn. now rewrite Hflag1, Hflag2.
  - eexists _, _, _. split; [eapply invoke_cancelled; eassumption|].
    split; [eapply invoke_cancelled; eassumption|]. split; [reflexivity|].
    discriminate.
Qed.

(** X3: a record with both fields present still has both fields present, and
    the same flag, after the run, so the executor can be invoked on it again,
    with any user, and does not reject. *)
Theorem accepted_record_stays_acceptable (args : AddParameterCommandArgs)
    (requiresFull : bool) (old : string) (user' : @User LanguageClient) :
  requiresFullSpecification args = Some requiresFull ->
  newParameter args = Some old ->
  exists w r,
    invoke user client args ≈ Ret (w, r)
    /\ requiresFullSpecification (world_args w) = Some requiresFull
    /\ newParameter (world_args w) <> None
    /\ exists w' b, invoke user' client (world_args w) ≈ Ret (w', Promise_resolve b).
Proof.
  intros Hflag Hold.
  assert (Hagain : forall a o, requiresFullSpecification a = Some requiresFull ->
            newParameter a = Some o ->
            exists w' b, invoke user' client a ≈ Ret (w', Promise_resolve b)).
  { intros a o Ha Ho.
    destruct (user' (inputBoxOptions client requiresFull)) as [T'|] eqn:Huser'.
    - eexists _, _. eapply invoke_confirmed; eassumption.
    - eexists _, _. eapply invoke_cancelled; eassumption. }
  destruct (user (inputBoxOptions client requiresFull)) as [T|] eqn:Huser.
  - eexists _, _. split; [eapply invoke_confirmed; eassumption|]. cbn.
    split; [exact Hflag|]. split; [discriminate|].
    apply Hagain with (o := T); [exact Hflag | reflexivity].
  - eexists _, _. split; [eapply invoke_cancelled; eassumption|]. cbn.
    split; [exact Hflag|]. split; [rewrite Hold; discriminate|].
    apply Hagain with (o := old); assumption.
Qed.

(** X4: whatever the flag, [Param_Spec_Rule] is among the grammar rules the
    input is checked against, so a full parameter specification is
    acceptable in both variants; the two rules for parameter names are among
    them exactly when a full specification is not required. *)
Theorem full_specification_always_accepted (args : AddParameterCommandArgs)
    (requiresFull : bool) (old : string) :
  requiresFullSpecification args = Some requiresFull ->
  newParameter args = Some old ->
  exists w r options provider,
    invoke user client args ≈ Ret (w, r)
    /\ prompts (world_effects w) = [options]
    /\ validateInput options = sendCheckSyntaxRequest provider
    /\ In Param_Spec_Rule (provider_rules provider)
    /\ (In Defining_Id_Rule (provider_rules provider) <-> requiresFull = false)
    /\ (In Defining_Id_List_Rule (provider_rules provider) <-> requiresFull = false).
Proof.
  intros Hflag Hold.
  assert (Hrun : exists w r, invoke user client args ≈ Ret (w, r)
            /\ prompts (world_effects w) = [inputBoxOptions client requiresFull]).
  { destruct (user (inputBoxOptions client requiresFull)) as [T|] eqn:Huser.
    - eexists _, _. split; [eapply invoke_confirmed; eassumption | reflexivity].
    - eexists _, _. split; [eapply invoke_cancelled; eassumption | reflexivity]. }
  destruct Hrun as (w & r & Hrun & Hprompts).
  exists w, r, (inputBoxOptions client requiresFull).
  eexists. split; [exact Hrun|]. split; [exact Hprompts|].
  split; [reflexivity|]. cbn.
  destruct requiresFull; cbn.
  - split; [now left|]. split; split; intros H;
      try discriminate; destruct H as [H|[]]; discriminate H.
  - split; [now right; right; left|]. split; split; intros _;
      try reflexivity; [now left | now right; left].
Qed.

(** X5: when [requiresFullSpecification] is present and only [newParameter]
    is missing, the rejection still carries the diagnostic that names
    [requiresFullSpecification] as the missing field, and that does not
    mention [newParameter]. *)
Theorem missing_newParameter_blames_flag (args : AddParameterCommandArgs)
    (requiresFull : bool) :
  requiresFullSpecification args = Some requiresFull ->
  newParameter args = None ->
  exists w reason,
    invoke user client args ≈ Ret (w, Promise_reject reason)
    /\ index 0 ("missing " ++ dquote ++ "requiresFullSpecification" ++ dquote) reason
       <> None
    /\ index 0 "newParameter" reason = None.
Proof.
  intros Hflag Hold. eexists _, _. split.
  - apply invoke_missing. now right.
  - split; vm_compute; [discriminate | reflexivity].
Qed.

Section Shared.

Variable meanwhile : AddParameterCommandArgs -> AddParameterCommandArgs.

Lemma invoke_shared_confirmed (args : AddParameterCommandArgs) requiresFull old T :
  requiresFullSpecification args = Some requiresFull ->
  newParameter args = Some old ->
  user (inputBoxOptions client requiresFull) = Some T ->
  invoke_shared user meanwhile client args
  ≈ Ret ({| world_args := set_newParameter T (meanwhile args);
            world_effects := [Prompted (inputBoxOptions client requiresFull);
                              Wrote_newParameter T] |},
         Promise_resolve true).
Proof.
  intros Hflag Hold Huser. unfold invoke_shared, alsAddParameterCommandExecutor.
  rewrite interp_state_bind, interp_state_trigger. cbn.
  rewrite bind_ret_l. cbn. rewrite Hflag, Hold.
  rewrite interp_state_bind, interp_state_trigger. cbn.
  rewrite bind_ret_l. cbn. rewrite Huser.
  rewrite interp_state_bind, interp_state_trigger. cbn.
  rewrite bind_ret_l. cbn.
  rewrite interp_state_ret. reflexivity.
Qed.

Lemma invoke_shared_cancelled (args : AddParameterCommandArgs) requiresFull old :
  requiresFullSpecification args = Some requiresFull ->
  newParameter args = Some old ->
  user (inputBoxOptions client requiresFull) = None ->
  invoke_shared user meanwhile client args
  ≈ Ret ({| world_args := meanwhile args;
            world_effects := [Prompted (inputBoxOptions client requiresFull)] |},
         Promise_resolve false).
Proof.
  intros Hflag Hold Huser. unfold invoke_shared, alsAddParameterCommandExecutor.
  rewrite interp_state_bind, interp_state_trigger. cbn.
  rewrite bind_ret_l. cbn. rewrite Hflag, Hold.
  rewrite interp_state_bind, interp_state_trigger. cbn.
  rewrite bind_ret_l. cbn. rewrite Huser.
  rewrite interp_state_ret. reflexivity.
Qed.

(** X6: the executor works on the caller's object, not on a copy.  If other
    code changes the record while the input box is open, the input box is
    still the one selected by the flag as it was at invocation; on
    confirmation only [newParameter] is assigned, on top of the record as
    changed in the meantime (a changed flag is kept, a [newParameter] written
    in the meantime is overwritten by the confirmed text); on cancellation
    the record is left as the other code made it. *)
Theorem assignment_reaches_live_record (args : AddParameterCommandArgs)
    (requiresFull : bool) (old : string) :
  requiresFullSpecification args = Some requiresFull ->
  newParameter args = Some old ->
  exists w r,
    invoke_shared user meanwhile client args ≈ Ret (w, r)
    /\ prompts (world_effects w) = [inputBoxOptions client requiresFull]
    /\ requiresFullSpecification (world_args w)
       = requiresFullSpecification (meanwhile args)
    /\ (forall T, user (inputBoxOptions client requiresFull) = Some T ->
          r = Promise_resolve true
          /\ newParameter (world_args w) = Some T
          /\ world_args w
             = {| newParameter := Some T;
                  requiresFullSpecification :=
                    requiresFullSpecification (meanwhile args) |})
    /\ (user (inputBoxOptions client requiresFull) = None ->
          r = Promise_resolve false /\ world_args w = meanwhile args).
Proof.
  intros Hflag Hold.
  destruct (user (inputBoxOptions client requiresFull)) as [T|] eqn:Huser.
  - eexists _, _. split; [eapply invoke_shared_confirmed; eassumption|].
    split; [reflexivity|]. split; [reflexivity|]. split.
    + intros T' HT'. injection HT' as <-. repeat split.
    + discriminate.
  - eexists _, _. split; [eapply invoke_shared_cancelled; eassumption|].
    split; [reflexivity|]. split; [reflexivity|]. split.
    + discriminate.
    + intros _. split; reflexivity.
Qed.

(** X7: a missing field is detected before the executor suspends: the run
    rejects without opening the input box, so code that would touch the
    record while a prompt is open never gets to run, and the record is
    exactly as the caller passed it. *)
Theorem rejection_precedes_suspension (args : AddParameterCommandArgs) :
  requiresFullSpecification args = None \/ newParameter args = None ->
  exists w,
    invoke_shared user meanwhile client args
    ≈ Ret (w, Promise_reject missing_field_message)
    /\ world_args w = args
    /\ world_effects w = [].
Proof.
  intros Hmissing.
  exists {| world_args := args; world_effects := [] |}.
  split; [|split; reflexivity].
  unfold invoke_shared, alsAddParameterCommandExecutor.
  rewrite interp_state_bind, interp_state_trigger. cbn.
  rewrite bind_ret_l. cbn.
  destruct args as [np rfs]; cbn in *.
  destruct rfs as [flag|], np as [old|];
    try (rewrite interp_state_ret; reflexivity).
  destruct Hmissing; discriminate.
Qed.

End Shared.

End Further.

(** ** The further properties at concrete invocations *)

Lemma old_text_is_not_used_witness :
  exists w1 w2 r,
    invoke (confirming "Count : Natural") tt args_full_required ≈ Ret (w1, r)
    /\ invoke (confirming "Count : Natural") tt
         {| newParameter := Some EmptyString; requiresFullSpecification := Some true |}
       ≈ Ret (w2, r)
    /\ world_effects w1 = world_effects w2
    /\ (r = Promise_resolve true -> world_args w1 = world_args w2).
Proof.
  apply (@old_text_is_not_used unit (confirming "Count : Natural") tt
           args_full_required
           {| newParameter := Some EmptyString; requiresFullSpecification := Some true |}
           true "A, B" EmptyString); reflexivity.
Defined.

Lemma accepted_record_stays_acceptable_witness :
  exists w r,
    invoke (confirming "A, B, C") tt args_names_allowed ≈ Ret (w, r)
    /\ requiresFullSpecification (world_args w) = Some false
    /\ newParameter (world_args w) <> None
    /\ exists w' b, invoke dismissing tt (world_args w) ≈ Ret (w', Promise_resolve b).
Proof.
  apply (@accepted_record_stays_acceptable unit (confirming "A, B, C") tt
           args_names_allowed false EmptyString dismissing); reflexivity.
Defined.

Lemma full_specification_always_accepted_witness :
  exists w r options provider,
    invoke dismissing tt args_full_required ≈ Ret (w, r)
    /\ prompts (world_effects w) = [options]
    /\ validateInput options = sendCheckSyntaxRequest provider
    /\ In Param_Spec_Rule (provider_rules provider)
    /\ (In Defining_Id_Rule (provider_rules provider) <-> true = false)
    /\ (In Defining_Id_List_Rule (provider_rules provider) <-> true = false).
Proof.
  apply (@full_specification_always_accepted unit dismissing tt args_full_required
           true "A, B"); reflexivity.
Defined.

Lemma missing_newParameter_blames_flag_witness :
  exists w reason,
    invoke (confirming "N") tt args_without_newParameter ≈ Ret (w, Promise_reject reason)
    /\ index 0 ("missing " ++ dquote ++ "requiresFullSpecification" ++ dquote) reason
       <> None
    /\ index 0 "newParameter" reason = None.
Proof.
  apply (@missing_newParameter_blames_flag unit (confirming "N") tt
           args_without_newParameter false); reflexivity.
Defined.

Lemma assignment_reaches_live_record_witness :
  exists w r,
    invoke_shared (confirming "X : Integer") flip_and_fill tt args_full_required
    ≈ Ret (w, r)
    /\ prompts (world_effects w) = [inputBoxOptions tt true]
    /\ requiresFullSpecification (world_args w) = Some false
    /\ (forall T, confirming "X : Integer" (inputBoxOptions tt true) = Some T ->
          r = Promise_resolve true
          /\ newParameter (world_args w) = Some T
          /\ world_args w
             = {| newParameter := Some T; requiresFullSpecification := Some false |})
    /\ (confirming "X : Integer" (inputBoxOptions tt true) = None ->
          r = Promise_resolve false
          /\ world_args w = flip_and_fill args_full_required).
Proof.
  apply (@assignment_reaches_live_record unit (confirming "X : Integer") tt
           flip_and_fill args_full_required true "A, B"); reflexivity.
Defined.

Lemma rejection_precedes_suspension_witness :
  exists w,
    invoke_shared (confirming "N") flip_and_fill tt args_without_newParameter
    ≈ Ret (w, Promise_reject missing_field_message)
    /\ world_args w = args_without_newParameter
    /\ world_effects w = [].
Proof.
  apply (@rejection_precedes_suspension unit (confirming "N") tt flip_and_fill
           args_without_newParameter).
  right; reflexivity.
Defined.
